(** * The packaging manifest of immutablex-starknet (setup.py)

    The repository's only source file is [setup.py]: an import of
    [setup] from setuptools followed by one call of it with keyword
    arguments that are all literals.

    The development keeps the file as it is written, as text, and derives
    everything else from that text by computation:

    - [Source]   the sixteen lines of the file;
    - [Lexer]    a tokenizer for the lexical structure the file uses;
    - [Syntax]   the abstract syntax of Python modules of this kind and a
                 recursive-descent parser for it;
    - [Eval]     execution of such a module, recording every call of
                 [setuptools.setup] with the keyword arguments it received;
    - [Requirement] the shape of a dependency specifier (name, then an
                 optional version part);
    - [Manifest] the descriptor the file produces, and its properties. *)

From Stdlib Require Import String Ascii List Bool Arith Lia.
Import ListNotations.

Open Scope string_scope.
Open Scope list_scope.

Set Warnings "-register-all".

(* ------------------------------------------------------------------ *)
(** ** The source file *)

Module Source.

(** The line feed that separates the lines of the file. *)
Definition LF : ascii := "010"%char.

(** setup.py, line by line (lines 1 to 16). Line 2 is blank. The file
    ends after the closing parenthesis of line 16, with no final line
    feed. *)
Definition source_lines : list string :=
  [ "from setuptools import setup"
  ; EmptyString
  ; "setup("
  ; "    name='immutablex-starknet',"
  ; "    version='0.1.0',"
  ; "    description='Immutable X StarkNet Contracts',"
  ; "    url='',"
  ; "    author='Immutable',"
  ; "    license='Apache-2.0',"
  ; "    packages=['immutablex'],"
  ; "    include_package_data=True,"
  ; "    install_requires=["
  ; "        'openzeppelin-cairo-contracts',"
  ; "        'cairolib'"
  ; "    ],"
  ; ")" ].

(** The bytes of the file: its lines joined by line feeds. *)
Definition source_text : string := String.concat (String LF EmptyString) source_lines.

(** [splitlines s] cuts a text at its line feeds, as [str.splitlines]
    does: a final line feed ends the last line and opens no new one. *)
Fixpoint splitlines_from (cur : string) (s : string) : list string :=
  match s with
  | EmptyString =>
      match cur with
      | EmptyString => []
      | _ => [cur]
      end
  | String c rest =>
      if Ascii.eqb c LF
      then cur :: splitlines_from EmptyString rest
      else splitlines_from (cur ++ String c EmptyString) rest
  end.

Definition splitlines (s : string) : list string := splitlines_from EmptyString s.

Definition line_count (s : string) : nat := length (splitlines s).

End Source.

(* ------------------------------------------------------------------ *)
(** ** Lexical structure *)

Module Lexer.

Inductive token : Type :=
| NAME (s : string)        (* identifier or keyword *)
| NUMBER (s : string)
| STRING (s : string)      (* contents of a quoted literal *)
| OP (c : ascii)           (* bracket, delimiter or operator character *)
| NEWLINE                  (* end of a logical line *)
| INDENT.                  (* a logical line that starts indented *)

Definition token_eqb (a b : token) : bool :=
  match a, b with
  | NAME x, NAME y => String.eqb x y
  | NUMBER x, NUMBER y => String.eqb x y
  | STRING x, STRING y => String.eqb x y
  | OP x, OP y => Ascii.eqb x y
  | NEWLINE, NEWLINE => true
  | INDENT, INDENT => true
  | _, _ => false
  end.

Definition between (lo hi : nat) (c : ascii) : bool :=
  let n := nat_of_ascii c in Nat.leb lo n && Nat.leb n hi.

Definition is_digit (c : ascii) : bool := between 48 57 c.
Definition is_letter (c : ascii) : bool := between 65 90 c || between 97 122 c.
Definition is_name_start (c : ascii) : bool := is_letter c || Ascii.eqb c "_"%char.
Definition is_name_char (c : ascii) : bool := is_name_start c || is_digit c.
Definition is_blank (c : ascii) : bool := Ascii.eqb c " "%char || Ascii.eqb c "009"%char.
Definition is_quote (c : ascii) : bool := Ascii.eqb c "'"%char || Ascii.eqb c "034"%char.
Definition is_open (c : ascii) : bool :=
  Ascii.eqb c "("%char || Ascii.eqb c "["%char || Ascii.eqb c "{"%char.
Definition is_close (c : ascii) : bool :=
  Ascii.eqb c ")"%char || Ascii.eqb c "]"%char || Ascii.eqb c "}"%char.
Definition is_printable (c : ascii) : bool := between 33 126 c.

(** What the tokenizer is in the middle of. *)
Inductive mode : Type :=
| Idle
| InName (acc : string)
| InNumber (acc : string)
| InString (quote : ascii) (acc : string)
| InComment.

(** Tokenizer state. [depth] counts the brackets that are open; line
    feeds inside brackets do not end the logical line. [fresh] says that
    the current logical line has no token yet, [indented] that blanks
    were seen at the start of the current physical line. [out] holds the
    tokens produced so far, latest first. *)
Record state : Type := mkState
  { depth : nat
  ; cur : mode
  ; fresh : bool
  ; indented : bool
  ; out : list token }.

Definition initial : state :=
  {| depth := 0; cur := Idle; fresh := true; indented := false; out := [] |}.

Definition snoc (s : string) (c : ascii) : string := s ++ String c EmptyString.

(** Emit a token; the first token of an indented logical line is
    preceded by [INDENT]. *)
Definition emit (st : state) (t : token) : state :=
  {| depth := depth st
   ; cur := Idle
   ; fresh := false
   ; indented := false
   ; out := if fresh st && indented st then t :: INDENT :: out st else t :: out st |}.

Definition with_mode (st : state) (m : mode) : state :=
  {| depth := depth st; cur := m; fresh := fresh st; indented := indented st; out := out st |}.

(** A line feed outside every bracket ends the logical line, unless the
    line is blank. *)
Definition end_of_line (st : state) : state :=
  match depth st with
  | 0 =>
      {| depth := 0
       ; cur := Idle
       ; fresh := true
       ; indented := false
       ; out := if fresh st then out st else NEWLINE :: out st |}
  | S _ => with_mode st Idle
  end.

(** One character read between tokens. *)
Definition idle_step (st : state) (c : ascii) : option state :=
  if Ascii.eqb c Source.LF then Some (end_of_line st)
  else if is_blank c then
    Some {| depth := depth st; cur := Idle; fresh := fresh st
          ; indented := fresh st; out := out st |}
  else if Ascii.eqb c "#"%char then Some (with_mode st InComment)
  else if is_quote c then Some (with_mode st (InString c EmptyString))
  else if is_name_start c then Some (with_mode st (InName (String c EmptyString)))
  else if is_digit c then Some (with_mode st (InNumber (String c EmptyString)))
  else if is_open c then
    let st' := emit st (OP c) in
    Some {| depth := S (depth st'); cur := Idle; fresh := false
          ; indented := false; out := out st' |}
  else if is_close c then
    match depth st with
    | 0 => None
    | S d =>
        let st' := emit st (OP c) in
        Some {| depth := d; cur := Idle; fresh := false
              ; indented := false; out := out st' |}
    end
  else if is_printable c then Some (emit st (OP c))
  else None.

(** One character, whatever the tokenizer is in the middle of. A quoted
    literal runs to the matching quote on the same line; escapes are not
    part of the fragment. *)
Definition step (st : state) (c : ascii) : option state :=
  match cur st with
  | Idle => idle_step st c
  | InName acc =>
      if is_name_char c then Some (with_mode st (InName (snoc acc c)))
      else idle_step (emit st (NAME acc)) c
  | InNumber acc =>
      if is_name_char c || Ascii.eqb c "."%char
      then Some (with_mode st (InNumber (snoc acc c)))
      else idle_step (emit st (NUMBER acc)) c
  | InString q acc =>
      if Ascii.eqb c q then Some (emit st (STRING acc))
      else if Ascii.eqb c Source.LF || Ascii.eqb c "092"%char then None
      else Some (with_mode st (InString q (snoc acc c)))
  | InComment =>
      if Ascii.eqb c Source.LF then Some (end_of_line st) else Some st
  end.

Fixpoint run (st : state) (s : string) : option state :=
  match s with
  | EmptyString => Some st
  | String c rest =>
      match step st c with
      | Some st' => run st' rest
      | None => None
      end
  end.

(** At the end of the text the pending token is flushed and the last
    logical line is closed; an open literal or bracket is an error. *)
Definition finish (st : state) : option (list token) :=
  let flushed :=
    match cur st with
    | Idle | InComment => Some st
    | InName acc => Some (emit st (NAME acc))
    | InNumber acc => Some (emit st (NUMBER acc))
    | InString _ _ => None
    end in
  match flushed with
  | None => None
  | Some st' =>
      match depth st' with
      | 0 => Some (rev (out (end_of_line st')))
      | S _ => None
      end
  end.

Definition tokenize (s : string) : option (list token) :=
  match run initial s with
  | Some st => finish st
  | None => None
  end.

(** The reserved words of Python 3. *)
Definition keywords : list string :=
  [ "False"; "None"; "True"; "and"; "as"; "assert"; "async"; "await"
  ; "break"; "class"; "continue"; "def"; "del"; "elif"; "else"; "except"
  ; "finally"; "for"; "from"; "global"; "if"; "import"; "in"; "is"
  ; "lambda"; "nonlocal"; "not"; "or"; "pass"; "raise"; "return"; "try"
  ; "while"; "with"; "yield" ].

Definition mem (x : string) (l : list string) : bool := existsb (String.eqb x) l.

Definition is_keyword (x : string) : bool := mem x keywords.

(** The reserved words that occur in a token list, in order. *)
Fixpoint keywords_used (ts : list token) : list string :=
  match ts with
  | [] => []
  | NAME x :: rest =>
      if is_keyword x then x :: keywords_used rest else keywords_used rest
  | _ :: rest => keywords_used rest
  end.

End Lexer.

(* ------------------------------------------------------------------ *)
(** ** Abstract syntax and parsing *)

Module Syntax.
Import Lexer.

(** Expressions: literals, names, list displays and calls with
    positional and keyword arguments. *)
Inductive expr : Type :=
| Str (s : string)
| Num (s : string)
| Const (c : string)                 (* True, False or None *)
| Name (id : string)
| ListE (elts : list expr)
| Call (func : expr) (args : list expr) (keywords : list (string * expr)).

(** Simple statements. Compound statements and definitions (def, class,
    if, for, while, try, with, ...) all start with a reserved word and
    are outside the fragment: the parser refuses them. *)
Inductive stmt : Type :=
| ImportFrom (module : string) (names : list string)
| Expr (value : expr).

Definition pmodule : Type := list stmt.

Definition constants : list string := [ "True"; "False"; "None" ].

Definition OPEN_PAREN : ascii := "("%char.
Definition CLOSE_PAREN : ascii := ")"%char.
Definition OPEN_BRACKET : ascii := "["%char.
Definition CLOSE_BRACKET : ascii := "]"%char.
Definition COMMA : ascii := ","%char.
Definition EQUAL : ascii := "="%char.

(** Arguments of a call, as they are collected. *)
Definition arguments : Type := (list expr * list (string * expr))%type.

Definition add_positional (e : expr) (a : arguments) : arguments :=
  (e :: fst a, snd a).

Definition add_keyword (k : string) (e : expr) (a : arguments) : arguments :=
  (fst a, (k, e) :: snd a).

(** Recursive descent, on a fuel that bounds the nesting and the number
    of tokens read. Every function returns what it parsed and the tokens
    that follow.

    - [parse_expr]: an atom followed by its call trailers;
    - [parse_trailers]: zero or more argument lists in parentheses;
    - [parse_elts]: the elements of a list display, after the opening
      bracket, up to and including the closing one;
    - [parse_args]: the arguments of a call, after the opening
      parenthesis, up to and including the closing one.

    A comma may follow the last element or argument. *)
Fixpoint parse_expr (fuel : nat) (ts : list token) : option (expr * list token) :=
  match fuel with
  | 0 => None
  | S n =>
      match ts with
      | STRING s :: rest => parse_trailers n (Str s) rest
      | NUMBER s :: rest => parse_trailers n (Num s) rest
      | NAME x :: rest =>
          if mem x constants then parse_trailers n (Const x) rest
          else if is_keyword x then None
          else parse_trailers n (Name x) rest
      | OP c :: rest =>
          if Ascii.eqb c OPEN_BRACKET then
            match parse_elts n rest with
            | Some (es, rest') => parse_trailers n (ListE es) rest'
            | None => None
            end
          else None
      | _ => None
      end
  end

with parse_trailers (fuel : nat) (e : expr) (ts : list token)
  : option (expr * list token) :=
  match fuel with
  | 0 => None
  | S n =>
      match ts with
      | OP c :: rest =>
          if Ascii.eqb c OPEN_PAREN then
            match parse_args n rest with
            | Some ((pos, kws), rest') => parse_trailers n (Call e pos kws) rest'
            | None => None
            end
          else Some (e, ts)
      | _ => Some (e, ts)
      end
  end

with parse_elts (fuel : nat) (ts : list token) : option (list expr * list token) :=
  match fuel with
  | 0 => None
  | S n =>
      match ts with
      | OP c :: rest =>
          if Ascii.eqb c CLOSE_BRACKET then Some ([], rest)
          else parse_elt n ts
      | _ => parse_elt n ts
      end
  end

with parse_elt (fuel : nat) (ts : list token) : option (list expr * list token) :=
  match fuel with
  | 0 => None
  | S n =>
      match parse_expr n ts with
      | Some (e, OP c :: rest) =>
          if Ascii.eqb c COMMA then
            match parse_elts n rest with
            | Some (es, rest') => Some (e :: es, rest')
            | None => None
            end
          else if Ascii.eqb c CLOSE_BRACKET then Some ([e], rest)
          else None
      | _ => None
      end
  end

with parse_args (fuel : nat) (ts : list token) : option (arguments * list token) :=
  match fuel with
  | 0 => None
  | S n =>
      match ts with
      | OP c :: rest =>
          if Ascii.eqb c CLOSE_PAREN then Some (([], []), rest)
          else parse_arg n None ts
      | NAME k :: OP c :: rest =>
          if Ascii.eqb c EQUAL
          then (if is_keyword k then None else parse_arg n (Some k) rest)
          else parse_arg n None ts
      | _ => parse_arg n None ts
      end
  end

with parse_arg (fuel : nat) (key : option string) (ts : list token)
  : option (arguments * list token) :=
  match fuel with
  | 0 => None
  | S n =>
      let add e a :=
        match key with
        | Some k => add_keyword k e a
        | None => add_positional e a
        end in
      match parse_expr n ts with
      | Some (e, OP c :: rest) =>
          if Ascii.eqb c COMMA then
            match parse_args n rest with
            | Some (a, rest') => Some (add e a, rest')
            | None => None
            end
          else if Ascii.eqb c CLOSE_PAREN then Some (add e ([], []), rest)
          else None
      | _ => None
      end
  end.

(** The names of [from m import a, b, ...], up to the end of the line. *)
Fixpoint parse_names (ts : list token) : option (list string * list token) :=
  match ts with
  | NAME x :: NEWLINE :: rest =>
      if is_keyword x then None else Some ([x], rest)
  | NAME x :: OP c :: rest =>
      if is_keyword x || negb (Ascii.eqb c COMMA) then None
      else
        match parse_names rest with
        | Some (xs, rest') => Some (x :: xs, rest')
        | None => None
        end
  | _ => None
  end.

(** One logical line. *)
Definition parse_stmt (fuel : nat) (ts : list token) : option (stmt * list token) :=
  match ts with
  | NAME "from" :: NAME m :: NAME "import" :: rest =>
      if is_keyword m then None
      else
        match parse_names rest with
        | Some (xs, rest') => Some (ImportFrom m xs, rest')
        | None => None
        end
  | _ =>
      match parse_expr fuel ts with
      | Some (e, NEWLINE :: rest) => Some (Expr e, rest)
      | _ => None
      end
  end.

Fixpoint parse_stmts (fuel : nat) (ts : list token) : option pmodule :=
  match ts with
  | [] => Some []
  | _ =>
      match fuel with
      | 0 => None
      | S n =>
          match parse_stmt fuel ts with
          | Some (s, rest) =>
              match parse_stmts n rest with
              | Some ss => Some (s :: ss)
              | None => None
              end
          | None => None
          end
      end
  end.

(** Every step of the descent consumes fuel, and a phrase of n tokens
    needs at most a few steps per token. *)
Definition parse_tokens (ts : list token) : option pmodule :=
  parse_stmts (4 * length ts + 4) ts.

Definition parse (text : string) : option pmodule :=
  match tokenize text with
  | Some ts => parse_tokens ts
  | None => None
  end.

(** Calls in an expression, and directly in a statement. *)
Fixpoint calls_in (e : expr) : nat :=
  match e with
  | Str _ | Num _ | Const _ | Name _ => 0
  | ListE es => fold_right (fun x n => calls_in x + n) 0 es
  | Call f args kws =>
      1 + calls_in f
        + fold_right (fun x n => calls_in x + n) 0 args
        + fold_right (fun kv n => calls_in (snd kv) + n) 0 kws
  end.

Definition calls_in_stmt (s : stmt) : nat :=
  match s with
  | ImportFrom _ _ => 0
  | Expr e => calls_in e
  end.

Definition calls_in_module (m : pmodule) : nat :=
  fold_right (fun s n => calls_in_stmt s + n) 0 m.

(** An expression is a literal when it is built from string, number and
    constant literals and list displays only. *)
Fixpoint is_literal (e : expr) : bool :=
  match e with
  | Str _ | Num _ | Const _ => true
  | Name _ => false
  | ListE es => forallb is_literal es
  | Call _ _ _ => false
  end.

End Syntax.

(* ------------------------------------------------------------------ *)
(** ** Execution *)

Module Eval.
Import Lexer Syntax.

(** The one callable the file imports. *)
Inductive builtin : Type :=
| SetuptoolsSetup.

(** Values. A distribution is the object [setuptools.setup] returns; it
    holds the keyword arguments of the call, in the order they were
    written. *)
Inductive value : Type :=
| VStr (s : string)
| VNum (s : string)
| VBool (b : bool)
| VNone
| VList (items : list value)
| VFunc (f : builtin)
| VDist (attrs : list (string * value)).

Definition attributes : Type := list (string * value).

Definition environment : Type := list (string * value).

(** The interpreter state: the names bound so far and the distributions
    that calls of [setup] have produced, oldest first. *)
Record store : Type := mkStore
  { globals : environment
  ; distributions : list attributes }.

Definition empty_store : store := {| globals := []; distributions := [] |}.

Fixpoint lookup {A : Type} (k : string) (l : list (string * A)) : option A :=
  match l with
  | [] => None
  | (k', v) :: rest => if String.eqb k k' then Some v else lookup k rest
  end.

Definition bind (x : string) (v : value) (st : store) : store :=
  {| globals := (x, v) :: globals st; distributions := distributions st |}.

Definition record_distribution (a : attributes) (st : store) : store :=
  {| globals := globals st; distributions := distributions st ++ [a] |}.

(** No keyword may be given twice in one call. *)
Fixpoint distinct_keys {A : Type} (l : list (string * A)) : bool :=
  match l with
  | [] => true
  | (k, _) :: rest => negb (mem k (map fst rest)) && distinct_keys rest
  end.

(** What an importable name of a module is bound to. Only
    [setuptools.setup] is known; any other import fails. *)
Definition import_name (module name : string) : option value :=
  if String.eqb module "setuptools" && String.eqb name "setup"
  then Some (VFunc SetuptoolsSetup)
  else None.

(** Applying a callable. [setup] takes keyword arguments only, records
    the distribution they describe and returns it. *)
Definition apply (f : value) (pos : list value) (kws : attributes) (st : store)
  : option (value * store) :=
  match f with
  | VFunc SetuptoolsSetup =>
      match pos with
      | [] => Some (VDist kws, record_distribution kws st)
      | _ :: _ => None
      end
  | _ => None
  end.

(** Evaluation, left to right, threading the store. *)
Fixpoint eval (e : expr) (st : store) : option (value * store) :=
  match e with
  | Str s => Some (VStr s, st)
  | Num s => Some (VNum s, st)
  | Const c =>
      if String.eqb c "True" then Some (VBool true, st)
      else if String.eqb c "False" then Some (VBool false, st)
      else if String.eqb c "None" then Some (VNone, st)
      else None
  | Name x =>
      match lookup x (globals st) with
      | Some v => Some (v, st)
      | None => None
      end
  | ListE es =>
      let fix eval_list (es : list expr) (st : store) : option (list value * store) :=
        match es with
        | [] => Some ([], st)
        | e :: rest =>
            match eval e st with
            | Some (v, st1) =>
                match eval_list rest st1 with
                | Some (vs, st2) => Some (v :: vs, st2)
                | None => None
                end
            | None => None
            end
        end in
      match eval_list es st with
      | Some (vs, st') => Some (VList vs, st')
      | None => None
      end
  | Call f args kws =>
      let fix eval_list (es : list expr) (st : store) : option (list value * store) :=
        match es with
        | [] => Some ([], st)
        | e :: rest =>
            match eval e st with
            | Some (v, st1) =>
                match eval_list rest st1 with
                | Some (vs, st2) => Some (v :: vs, st2)
                | None => None
                end
            | None => None
            end
        end in
      let fix eval_keywords (kws : list (string * expr)) (st : store)
        : option (attributes * store) :=
        match kws with
        | [] => Some ([], st)
        | (k, e) :: rest =>
            match eval e st with
            | Some (v, st1) =>
                match eval_keywords rest st1 with
                | Some (kvs, st2) => Some ((k, v) :: kvs, st2)
                | None => None
                end
            | None => None
            end
        end in
      if distinct_keys kws then
        match eval f st with
        | Some (fv, st0) =>
            match eval_list args st0 with
            | Some (pos, st1) =>
                match eval_keywords kws st1 with
                | Some (kvs, st2) => apply fv pos kvs st2
                | None => None
                end
            | None => None
            end
        | None => None
        end
      else None
  end.

Fixpoint import_names (module : string) (names : list string) (st : store)
  : option store :=
  match names with
  | [] => Some st
  | x :: rest =>
      match import_name module x with
      | Some v => import_names module rest (bind x v st)
      | None => None
      end
  end.

Definition exec (s : stmt) (st : store) : option store :=
  match s with
  | ImportFrom m names => import_names m names st
  | Expr e =>
      match eval e st with
      | Some (_, st') => Some st'
      | None => None
      end
  end.

Fixpoint exec_module (m : pmodule) (st : store) : option store :=
  match m with
  | [] => Some st
  | s :: rest =>
      match exec s st with
      | Some st' => exec_module rest st'
      | None => None
      end
  end.

(** Running a file: tokenize, parse, execute from the empty store. *)
Definition run (text : string) : option store :=
  match parse text with
  | Some m => exec_module m empty_store
  | None => None
  end.

End Eval.

(* ------------------------------------------------------------------ *)
(** ** Dependency specifiers *)

Module Requirement.
Import Lexer.

(** The characters of a distribution name: letters, digits, hyphen,
    underscore and dot. *)
Definition is_req_name_char (c : ascii) : bool :=
  is_letter c || is_digit c
  || Ascii.eqb c "-"%char || Ascii.eqb c "_"%char || Ascii.eqb c "."%char.

Definition is_alnum (c : ascii) : bool := is_letter c || is_digit c.

(** The characters that open or make up what may follow the name in a
    dependency specifier: comparison operators of a version clause,
    extras in brackets, a direct reference, an environment marker,
    separators and blanks. *)
Definition specifier_chars : list ascii :=
  [ "<"; ">"; "="; "!"; "~"; "@"; ";"; "["; "]"; "("; ")"; ","; "*"; " " ]%char.

(** [span p s] splits [s] after its longest prefix of characters that
    satisfy [p]. *)
Fixpoint span (p : ascii -> bool) (s : string) : string * string :=
  match s with
  | EmptyString => (EmptyString, EmptyString)
  | String c rest =>
      if p c
      then (String c (fst (span p rest)), snd (span p rest))
      else (EmptyString, s)
  end.

Fixpoint drop_blanks (s : string) : string :=
  match s with
  | EmptyString => EmptyString
  | String c rest => if is_blank c then drop_blanks rest else s
  end.

Fixpoint last_char (s : string) : option ascii :=
  match s with
  | EmptyString => None
  | String c EmptyString => Some c
  | String _ rest => last_char rest
  end.

Definition first_char (s : string) : option ascii :=
  match s with
  | EmptyString => None
  | String c _ => Some c
  end.

Definition holds (p : ascii -> bool) (c : option ascii) : bool :=
  match c with
  | Some x => p x
  | None => false
  end.

(** A name is not empty and starts and ends with a letter or a digit. *)
Definition valid_name (n : string) : bool :=
  holds is_alnum (first_char n) && holds is_alnum (last_char n).

(** A specifier read as its name and everything after it (extras,
    version clause, marker), leading blanks dropped. *)
Record requirement : Type := mkRequirement
  { req_name : string
  ; req_constraint : string }.

Definition parse (r : string) : option requirement :=
  let parts := span is_req_name_char (drop_blanks r) in
  if valid_name (fst parts)
  then Some {| req_name := fst parts; req_constraint := drop_blanks (snd parts) |}
  else None.

(** A bare identifier: the whole specifier is the name, nothing is
    attached to it. *)
Definition bare (r : string) : Prop :=
  parse r = Some {| req_name := r; req_constraint := EmptyString |}.

Definition occurs (c : ascii) (s : string) : Prop := In c (list_ascii_of_string s).

End Requirement.

(* ------------------------------------------------------------------ *)
(** ** The descriptor of setup.py *)

Module Manifest.
Import Syntax Eval.

(** The distribution that running setup.py produces: defined when the
    file runs without error and calls [setup] exactly once. *)
Definition descriptor : option attributes :=
  match run Source.source_text with
  | Some st =>
      match distributions st with
      | [d] => Some d
      | _ => None
      end
  | None => None
  end.

(** The value the descriptor gives to a keyword. *)
Definition field (k : string) : option value :=
  match descriptor with
  | Some d => lookup k d
  | None => None
  end.

Definition identity_fields : list string :=
  [ "name"; "version"; "description"; "url"; "author"; "license" ].

(** The keyword arguments of the call in setup.py, as parsed. *)
Definition setup_keywords : list (string * Syntax.expr) :=
  [ ("name", Str "immutablex-starknet")
  ; ("version", Str "0.1.0")
  ; ("description", Str "Immutable X StarkNet Contracts")
  ; ("url", Str EmptyString)
  ; ("author", Str "Immutable")
  ; ("license", Str "Apache-2.0")
  ; ("packages", ListE [Str "immutablex"])
  ; ("include_package_data", Const "True")
  ; ("install_requires", ListE [Str "openzeppelin-cairo-contracts"; Str "cairolib"]) ].

(** The module setup.py parses to: one import and one call statement. *)
Definition setup_py : Syntax.pmodule :=
  [ ImportFrom "setuptools" ["setup"]
  ; Expr (Call (Name "setup") [] setup_keywords) ].

(** The attributes of the distribution, as evaluated. *)
Definition setup_attributes : attributes :=
  [ ("name", VStr "immutablex-starknet")
  ; ("version", VStr "0.1.0")
  ; ("description", VStr "Immutable X StarkNet Contracts")
  ; ("url", VStr EmptyString)
  ; ("author", VStr "Immutable")
  ; ("license", VStr "Apache-2.0")
  ; ("packages", VList [VStr "immutablex"])
  ; ("include_package_data", VBool true)
  ; ("install_requires", VList [VStr "openzeppelin-cairo-contracts"; VStr "cairolib"]) ].

End Manifest.

(* ------------------------------------------------------------------ *)
(** ** Names in the descriptor *)

Module Metadata.
Import Lexer Syntax Eval.

(** The keywords of an attribute list, in the order they were given. *)
Definition keys (a : attributes) : list string := map fst a.

(** The keywords that the call in setup.py passes (lines 4 to 15). *)
Definition declared_keys : list string :=
  [ "name"; "version"; "description"; "url"; "author"; "license"
  ; "packages"; "include_package_data"; "install_requires" ].

(** The statement of lines 3 to 16 alone, without the import of line 1. *)
Definition setup_call : stmt := Expr (Call (Name "setup") [] Manifest.setup_keywords).

Fixpoint all_chars (p : ascii -> bool) (s : string) : bool :=
  match s with
  | EmptyString => true
  | String c rest => p c && all_chars p rest
  end.

(** A name that can be written after [import]: a letter or underscore,
    then letters, digits and underscores, and not a reserved word. *)
Definition is_identifier (s : string) : bool :=
  match s with
  | EmptyString => false
  | String c rest => is_name_start c && all_chars is_name_char rest && negb (is_keyword s)
  end.

End Metadata.

(* ------------------------------------------------------------------ *)
(** ** Properties of the source text *)

Import Lexer Syntax Eval Requirement Manifest Metadata.

(** Cutting the text of the file at its line feeds gives back its lines. *)
Lemma splitlines_source : Source.splitlines Source.source_text = Source.source_lines.
Proof. vm_compute. reflexivity. Qed.

Lemma parse_source : Syntax.parse Source.source_text = Some setup_py.
Proof. vm_compute. reflexivity. Qed.

(** Running the file succeeds, binds [setup] and records one distribution. *)
Lemma run_source :
  run Source.source_text =
  Some {| globals := [("setup", VFunc SetuptoolsSetup)]
        ; distributions := [setup_attributes] |}.
Proof. vm_compute. reflexivity. Qed.

Lemma descriptor_eq : descriptor = Some setup_attributes.
Proof. unfold descriptor. rewrite run_source. reflexivity. Qed.

Lemma field_eq (k : string) : field k = lookup k setup_attributes.
Proof. unfold field. rewrite descriptor_eq. reflexivity. Qed.

(* ------------------------------------------------------------------ *)
(** ** Dependency specifiers: general facts *)

Section Span.

Variable p : ascii -> bool.

(** Every character of the prefix that [span] cuts satisfies the test. *)
Lemma span_prefix_all (s : string) (c : ascii) :
  occurs c (fst (span p s)) -> p c = true.
Proof.
  unfold occurs. induction s as [| a rest IH]; simpl.
  - intros [].
  - destruct (p a) eqn:Hpa; simpl.
    + intros [<- | Hin]; [exact Hpa | exact (IH Hin)].
    + intros [].
Qed.

(** The two parts that [span] returns make up the string. *)
Lemma span_append (s : string) : (fst (span p s) ++ snd (span p s))%string = s.
Proof.
  induction s as [| a rest IH]; simpl; [reflexivity |].
  destruct (p a); simpl; [now rewrite IH | reflexivity].
Qed.

End Span.

(** No character of a version clause, of extras, of a direct reference or
    of a marker can be part of a name. *)
Lemma specifier_char_not_name (c : ascii) :
  In c specifier_chars -> is_req_name_char c = false.
Proof.
  unfold specifier_chars. simpl.
  intros H.
  repeat (destruct H as [<- | H]; [reflexivity |]).
  destruct H.
Qed.

(** A bare identifier consists of name characters only. *)
Lemma bare_name_chars (r : string) (c : ascii) :
  bare r -> occurs c r -> is_req_name_char c = true.
Proof.
  unfold bare, Requirement.parse. intros Hparse Hocc.
  destruct (valid_name (fst (span is_req_name_char (drop_blanks r)))); [| discriminate].
  injection Hparse as Hname _.
  rewrite <- Hname in Hocc.
  exact (span_prefix_all is_req_name_char _ c Hocc).
Qed.

(** So a bare identifier holds no character of a version constraint. *)
Lemma bare_no_specifier (r : string) (c : ascii) :
  bare r -> In c specifier_chars -> ~ occurs c r.
Proof.
  intros Hbare Hspec Hocc.
  pose proof (bare_name_chars r c Hbare Hocc) as Hname.
  rewrite (specifier_char_not_name c Hspec) in Hname. discriminate.
Qed.

(** A specifier with a version clause is not bare, for instance. *)
Example pinned_not_bare : ~ bare "cairolib==0.1.0".
Proof. unfold bare. vm_compute. discriminate. Qed.

Example pinned_parse :
  Requirement.parse "cairolib >=0.1" =
  Some {| req_name := "cairolib"; req_constraint := ">=0.1" |}.
Proof. reflexivity. Qed.

(* ------------------------------------------------------------------ *)
(** ** The fragment refuses definitions and control flow *)

Example parse_refuses_def : Syntax.parse "def f(): pass" = None.
Proof. reflexivity. Qed.

Example parse_refuses_if : Syntax.parse "if True: setup()" = None.
Proof. reflexivity. Qed.

Example parse_refuses_assignment : Syntax.parse "x = setup()" = None.
Proof. reflexivity. Qed.

Example two_calls_counted :
  option_map calls_in_module (Syntax.parse "setup(name='a')(url=setup())") = Some 3.
Proof. reflexivity. Qed.

(* ------------------------------------------------------------------ *)
(** ** The claims *)

(** C1. The descriptor produced by the setup call declares exactly two
    dependencies in install_requires, and they are the strings
    'openzeppelin-cairo-contracts' and 'cairolib'. *)
Theorem install_requires_two_dependencies :
  exists deps,
    field "install_requires" = Some (VList deps)
    /\ length deps = 2
    /\ deps = [VStr "openzeppelin-cairo-contracts"; VStr "cairolib"].
Proof.
  eexists. rewrite field_eq. simpl.
  split; [reflexivity | split; reflexivity].
Qed.

(** C2, as stated: every identity field (name, version, description, url,
    author, license) is a non-empty string. This fails: url is the empty
    string. *)
Lemma identity_fields_nonempty_fails :
  ~ (forall k, In k identity_fields ->
       exists s, field k = Some (VStr s) /\ s <> EmptyString).
Proof.
  intros H.
  destruct (H "url") as [s [Hfield Hnonempty]].
  - simpl. auto.
  - rewrite field_eq in Hfield. simpl in Hfield.
    injection Hfield as <-. apply Hnonempty. reflexivity.
Qed.

(** C2, amended. Every identity field of the descriptor is a string; each
    of them other than url is non-empty, and url is the empty string. *)
Theorem identity_fields_strings (k : string) :
  In k identity_fields ->
  exists s,
    field k = Some (VStr s)
    /\ (k <> "url" -> s <> EmptyString)
    /\ (k = "url" -> s = EmptyString).
Proof.
  intros Hin. rewrite field_eq. simpl in Hin.
  repeat (destruct Hin as [<- | Hin];
          [ eexists; split; [reflexivity |];
            split; [ intros Hk; first [ discriminate | now elim Hk ]
                   | intros Hk; first [ reflexivity | discriminate Hk ] ]
          | ]).
  destruct Hin.
Qed.

Lemma identity_fields_strings_witness :
  In "name" identity_fields
  /\ exists s,
       field "name" = Some (VStr s)
       /\ ("name" <> "url" -> s <> EmptyString)
       /\ ("name" = "url" -> s = EmptyString).
Proof.
  split.
  - simpl. auto.
  - apply (identity_fields_strings "name"). simpl. auto.
Defined.

(** C3. The descriptor declares exactly one package namespace in its
    packages list. *)
Theorem packages_one_namespace :
  exists pkgs p,
    field "packages" = Some (VList pkgs)
    /\ pkgs = [VStr p]
    /\ length pkgs = 1.
Proof.
  exists [VStr "immutablex"], "immutablex".
  rewrite field_eq. repeat split.
Qed.

(** C4. The license string of the descriptor is 'Apache-2.0'. *)
Theorem license_is_apache_2_0 : field "license" = Some (VStr "Apache-2.0").
Proof. rewrite field_eq. reflexivity. Qed.

(** C5. The version string of the descriptor is '0.1.0'. *)
Theorem version_is_0_1_0 : field "version" = Some (VStr "0.1.0").
Proof. rewrite field_eq. reflexivity. Qed.

(** C6. Every entry of the declared dependency list is a bare library
    identifier: a string that is a name and nothing more, holding no
    character of a version specifier, bound or pin. *)
Theorem dependencies_are_bare (deps : list value) (v : value) :
  field "install_requires" = Some (VList deps) ->
  In v deps ->
  exists r,
    v = VStr r
    /\ bare r
    /\ forall c, In c specifier_chars -> ~ occurs c r.
Proof.
  rewrite field_eq. simpl. intros Hdeps Hin.
  injection Hdeps as <-.
  assert (Hbare : exists r, v = VStr r /\ bare r).
  { destruct Hin as [<- | [<- | []]]; eexists; split; reflexivity. }
  destruct Hbare as [r [Hv Hbare]].
  exists r. split; [exact Hv | split; [exact Hbare |]].
  intros c Hc. exact (bare_no_specifier r c Hbare Hc).
Qed.

Lemma dependencies_are_bare_witness :
  field "install_requires"
  = Some (VList [VStr "openzeppelin-cairo-contracts"; VStr "cairolib"])
  /\ In (VStr "cairolib") [VStr "openzeppelin-cairo-contracts"; VStr "cairolib"]
  /\ exists r,
       VStr "cairolib" = VStr r
       /\ bare r
       /\ forall c, In c specifier_chars -> ~ occurs c r.
Proof.
  split; [rewrite field_eq; reflexivity |].
  split; [simpl; auto |].
  apply (dependencies_are_bare
           [VStr "openzeppelin-cairo-contracts"; VStr "cairolib"]
           (VStr "cairolib")).
  - rewrite field_eq. reflexivity.
  - simpl. auto.
Defined.

(** C7. The source is one declarative manifest of exactly 16 lines: an
    import followed by a single call, of [setup], whose arguments are all
    keyword arguments with literal values. It holds no other call, and no
    reserved word other than those of the import and the constant True,
    so no definition and no control flow. *)
Theorem source_is_one_setup_call :
  Source.line_count Source.source_text = 16
  /\ Syntax.parse Source.source_text
     = Some [ ImportFrom "setuptools" ["setup"]
            ; Expr (Call (Name "setup") [] setup_keywords) ]
  /\ forallb (fun kv => is_literal (snd kv)) setup_keywords = true
  /\ option_map calls_in_module (Syntax.parse Source.source_text) = Some 1
  /\ option_map keywords_used (tokenize Source.source_text)
     = Some ["from"; "import"; "True"]
  /\ option_map (fun st => length (distributions st)) (run Source.source_text)
     = Some 1.
Proof.
  split.
  - unfold Source.line_count. rewrite splitlines_source. reflexivity.
  - split; [exact parse_source |].
    split; [reflexivity |].
    split; [rewrite parse_source; reflexivity |].
    split; [vm_compute; reflexivity |].
    rewrite run_source. reflexivity.
Qed.

(** C8. The declared package list and the declared dependency list hold
    no duplicate entry. *)
Theorem packages_and_dependencies_no_duplicates :
  exists pkgs deps,
    field "packages" = Some (VList pkgs)
    /\ field "install_requires" = Some (VList deps)
    /\ NoDup pkgs
    /\ NoDup deps.
Proof.
  do 2 eexists. rewrite !field_eq. simpl.
  split; [reflexivity | split; [reflexivity |]].
  split.
  - constructor; [intros [] | constructor].
  - constructor.
    + intros [Heq | []]. discriminate Heq.
    + constructor; [intros [] | constructor].
Qed.

(** The value of the include_package_data keyword (line 11). Which files
    a build then puts in the distribution is decided by setuptools and by
    the data files of the package; neither is part of setup.py, and
    nothing is stated about it here. *)
Lemma include_package_data_is_true :
  field "include_package_data" = Some (VBool true).
Proof. rewrite field_eq. reflexivity. Qed.

(** C10. In the descriptor, name is 'immutablex-starknet', description is
    'Immutable X StarkNet Contracts', author is 'Immutable' and url is the
    empty string. *)
Theorem remaining_identity_values :
  field "name" = Some (VStr "immutablex-starknet")
  /\ field "description" = Some (VStr "Immutable X StarkNet Contracts")
  /\ field "author" = Some (VStr "Immutable")
  /\ field "url" = Some (VStr EmptyString).
Proof. rewrite !field_eq. repeat split. Qed.

(* ------------------------------------------------------------------ *)
(** ** Attribute lists: general facts *)

Section Attributes.

Variable A : Type.

(** A keyword that was not given has no value. *)
Lemma lookup_absent (k : string) (l : list (string * A)) :
  ~ In k (map fst l) -> lookup k l = None.
Proof.
  induction l as [| [k' v] rest IH]; simpl; intros Hnot; [reflexivity |].
  destruct (String.eqb_spec k k') as [-> | Hne].
  - exfalso. apply Hnot. left. reflexivity.
  - apply IH. intros Hin. apply Hnot. right. exact Hin.
Qed.



End Attributes.

(* ------------------------------------------------------------------ *)
(** ** Further properties of setup.py *)

(** The keywords of the descriptor are the nine of the call, in order. *)
Lemma descriptor_keys : option_map keys descriptor = Some declared_keys.
Proof. rewrite descriptor_eq. reflexivity. Qed.

(** X1. The descriptor holds the nine keywords of the call and nothing
    else: any other keyword (python_requires, author_email, entry_points,
    ...) has no value. *)
Theorem undeclared_field_is_absent (k : string) :
  ~ In k declared_keys -> field k = None.
Proof.
  intros Hnot. rewrite field_eq. apply lookup_absent. exact Hnot.
Qed.

Lemma undeclared_field_is_absent_witness :
  ~ In "python_requires" declared_keys /\ field "python_requires" = None.
Proof.
  assert (Hnot : ~ In "python_requires" declared_keys).
  { simpl. intros H.
    repeat (destruct H as [H | H]; [discriminate H |]).
    exact H. }
  split; [exact Hnot | exact (undeclared_field_is_absent "python_requires" Hnot)].
Defined.



(** X3. The file does not depend on what was defined before it runs: from
    any store, the import binds [setup] (over any earlier binding), the
    call resolves to it, and exactly one distribution, with the same
    attributes, is added after those already recorded. *)
Theorem run_from_any_store (st : store) :
  exec_module setup_py st =
  Some {| globals := ("setup", VFunc SetuptoolsSetup) :: globals st
        ; distributions := distributions st ++ [setup_attributes] |}.
Proof. destruct st as [g ds]. reflexivity. Qed.

(** X4. The call of lines 3 to 16 needs the import of line 1: in a store
    where [setup] is not bound the statement fails and records nothing. *)
Theorem call_without_import_fails (st : store) :
  lookup "setup" (globals st) = None -> exec setup_call st = None.
Proof.
  intros Hunbound. unfold setup_call, exec. simpl. rewrite Hunbound. reflexivity.
Qed.

Lemma call_without_import_fails_witness :
  lookup "setup" (globals empty_store) = None /\ exec setup_call empty_store = None.
Proof.
  split; [reflexivity | apply (call_without_import_fails empty_store); reflexivity].
Defined.

(** X5. Every entry of the packages list is a string that is a Python
    identifier, so each declared namespace can be imported by name. *)
Theorem packages_are_identifiers (pkgs : list value) (v : value) :
  field "packages" = Some (VList pkgs) ->
  In v pkgs ->
  exists p, v = VStr p /\ is_identifier p = true.
Proof.
  rewrite field_eq. simpl. intros Hpkgs Hin.
  injection Hpkgs as <-.
  destruct Hin as [<- | []].
  eexists. split; reflexivity.
Qed.

Lemma packages_are_identifiers_witness :
  field "packages" = Some (VList [VStr "immutablex"])
  /\ In (VStr "immutablex") [VStr "immutablex"]
  /\ exists p, VStr "immutablex" = VStr p /\ is_identifier p = true.
Proof.
  split; [rewrite field_eq; reflexivity |].
  split; [simpl; auto |].
  apply (packages_are_identifiers [VStr "immutablex"] (VStr "immutablex")).
  - rewrite field_eq. reflexivity.
  - simpl. auto.
Defined.

(** X6. The distribution name is a well-formed bare distribution name but
    not a Python identifier (it holds a hyphen), and it is not one of the
    declared package namespaces: the name to install differs from the
    name to import. *)
Theorem name_is_distribution_name_not_namespace :
  exists n pkgs,
    field "name" = Some (VStr n)
    /\ field "packages" = Some (VList pkgs)
    /\ bare n
    /\ is_identifier n = false
    /\ occurs "-"%char n
    /\ ~ In (VStr n) pkgs.
Proof.
  do 2 eexists. rewrite !field_eq. simpl.
  split; [reflexivity | split; [reflexivity |]].
  split; [reflexivity |].
  split; [reflexivity |].
  split.
  - unfold occurs. simpl. auto 20.
  - intros [Heq | []]. discriminate Heq.
Qed.

(** X7. The distribution does not list itself among its dependencies, and
    no dependency is one of its own package namespaces. *)
Theorem no_self_dependency (n : string) (pkgs deps : list value) :
  field "name" = Some (VStr n) ->
  field "packages" = Some (VList pkgs) ->
  field "install_requires" = Some (VList deps) ->
  ~ In (VStr n) deps /\ forall v, In v deps -> ~ In v pkgs.
Proof.
  rewrite !field_eq. simpl. intros Hn Hp Hd.
  injection Hn as <-. injection Hp as <-. injection Hd as <-.
  split.
  - intros [H | [H | []]]; discriminate H.
  - intros v [<- | [<- | []]] [H | []]; discriminate H.
Qed.

Lemma no_self_dependency_witness :
  field "name" = Some (VStr "immutablex-starknet")
  /\ ~ In (VStr "immutablex-starknet")
         [VStr "openzeppelin-cairo-contracts"; VStr "cairolib"].
Proof.
  assert (Hn : field "name" = Some (VStr "immutablex-starknet"))
    by (rewrite field_eq; reflexivity).
  assert (Hp : field "packages" = Some (VList [VStr "immutablex"]))
    by (rewrite field_eq; reflexivity).
  assert (Hd : field "install_requires"
               = Some (VList [VStr "openzeppelin-cairo-contracts"; VStr "cairolib"]))
    by (rewrite field_eq; reflexivity).
  split; [exact Hn |].
  exact (proj1 (no_self_dependency "immutablex-starknet" _ _ Hn Hp Hd)).
Defined.
